(** * Irreversible Impact Score calculator: a shallow embedding of
    [src/calculate_iis.py] and the properties of its calculator and CLI.

    Python's [float] is IEEE 754 binary64.  It is modelled with the
    Standard Library's executable reference semantics of binary floats,
    [SpecFloat] at precision 53 and maximal exponent 1024 (the model the
    kernel's primitive floats are specified against), so that every
    division, multiplication and comparison of the source rounds and
    compares exactly as CPython does. *)

From Stdlib Require Import ZArith List String Ascii Bool Lia.
From Stdlib Require Import SpecFloat.
Import ListNotations.
Open Scope Z_scope.
Open Scope string_scope.

(** ** Python floats *)

Definition float := spec_float.
Definition prec : Z := 53.
Definition emax : Z := 1024.

(** [a / b] and [a * b] on floats: rounded to nearest, ties to even. *)
Definition fdiv (a b : float) : float := SFdiv prec emax a b.
Definition fmul (a b : float) : float := SFmul prec emax a b.

(** Python's [a < b] and [a <= b] on floats (false whenever a NaN is
    involved). *)
Definition flt (a b : float) : bool := SFltb a b.
Definition fle (a b : float) : bool := SFleb a b.

(** The float of an integer (exact for the integers used below). *)
Definition of_Z (z : Z) : float := binary_normalize prec emax z 0 false.

(** A decimal literal [m * 10^-k], e.g. [0.045 = of_dec 45 3]: the
    correctly rounded quotient of two exactly representable integers is
    the nearest float to the decimal, which is what CPython's parser
    produces. *)
Definition of_dec (m : Z) (k : nat) : float :=
  fdiv (of_Z m) (of_Z (10 ^ Z.of_nat k)).

Definition zero : float := of_Z 0.
Definition one : float := of_Z 1.
Definition hundred : float := of_Z 100.

(** ** Python exceptions and results *)

Inductive py_exc :=
| ValueError (msg : string)
| SystemExit (code : Z).

Inductive result (A : Type) :=
| Ok (v : A)
| Raise (e : py_exc).
Arguments Ok {A} v.
Arguments Raise {A} e.

(** ** The calculator *)

(** [_normalize_rate] (source lines 22-29). *)
Definition _normalize_rate (rate : float) : result float :=
  if flt rate zero then Raise (ValueError "Rate must be non-negative.")
  else if flt one rate then Ok (fdiv rate hundred)
  else Ok rate.

(** [calculate_iis] (source lines 32-63).  [rate_is_percent] is
    [Optional[bool]]: [None] is Python's [None]. *)
Definition calculate_iis (principal rate : float) (rate_is_percent : option bool)
  : result float :=
  if fle principal zero then Raise (ValueError "Principal must be greater than zero.")
  else if fle rate zero then Raise (ValueError "Rate must be greater than zero.")
  else
    let r_res :=
      match rate_is_percent with
      | Some true => Ok (fdiv rate hundred)
      | Some false => Ok rate
      | None => _normalize_rate rate
      end in
    match r_res with
    | Raise e => Raise e
    | Ok r =>
        let iis_score := fmul (fdiv r principal) hundred in
        Ok iis_score
    end.

(** ** Fixed-point formatting: [format(x, '.Nf')] and [format(x, ',.Nf')]

    CPython formats the exact binary value of the float, rounded to
    [N] decimals with ties to even; [inf] and [nan] are spelled out and
    the sign of a negative value (also of [-0.0]) is kept. *)

Definition digit_char (d : Z) : ascii := ascii_of_nat (48 + Z.to_nat d).

(** Decimal digits of [n >= 0], least significant first. *)
Fixpoint digits_rev (fuel : nat) (n : Z) : list ascii :=
  match fuel with
  | O => []
  | S f =>
      digit_char (n mod 10) ::
      (if (n / 10 =? 0)%Z then [] else digits_rev f (n / 10))
  end.

Definition decimal_digits (n : Z) : list ascii :=
  rev (digits_rev (S (Z.to_nat (Z.log2 n))) n).

(** Insert a [,] every three digits, on a digit list in reverse order. *)
Fixpoint group_rev (l : list ascii) : list ascii :=
  match l with
  | a :: b :: c :: ((_ :: _) as rest) => a :: b :: c :: ","%char :: group_rev rest
  | _ => l
  end.

Fixpoint pad_left (n : nat) (l : list ascii) : list ascii :=
  match n with
  | O => l
  | S k => if Nat.leb n (List.length l) then l else "0"%char :: pad_left k l
  end.

Definition round_half_even (n d : Z) : Z :=
  let q := n / d in
  let r := n mod d in
  match Z.compare (2 * r) d with
  | Lt => q
  | Gt => q + 1
  | Eq => if Z.even q then q else q + 1
  end.

(** The value [|x| * 10^nd] rounded to an integer, for a finite [x]. *)
Definition scaled_abs (nd : nat) (m : positive) (e : Z) : Z :=
  let p10 := 10 ^ Z.of_nat nd in
  if (0 <=? e)%Z then Z.pos m * 2 ^ e * p10
  else round_half_even (Z.pos m * p10) (2 ^ (- e)).

Definition fixed_body (grouping : bool) (nd : nat) (q : Z) : string :=
  let p10 := 10 ^ Z.of_nat nd in
  let ip := decimal_digits (q / p10) in
  let ip := if grouping then rev (group_rev (rev ip)) else ip in
  let fp := pad_left nd (decimal_digits (q mod p10)) in
  string_of_list_ascii ip ++
  (match nd with O => "" | _ => "." ++ string_of_list_ascii fp end).

Definition sign_str (s : bool) : string := if s then "-" else "".

Definition format_fixed (grouping : bool) (nd : nat) (x : float) : string :=
  match x with
  | S754_nan => "nan"
  | S754_infinity s => sign_str s ++ "inf"
  | S754_zero s => sign_str s ++ fixed_body grouping nd 0
  | S754_finite s m e => sign_str s ++ fixed_body grouping nd (scaled_abs nd m e)
  end.

(** [_format_currency] (source lines 66-67): [f"${amount:,.2f}"]. *)
Definition _format_currency (amount : float) : string :=
  "$" ++ format_fixed true 2 amount.

(** ** Console output and exceptions: a small state-and-exception monad

    A computation receives the lines printed so far (on standard output
    or standard error) and returns the extended log with either a value
    or a raised exception. *)

Inductive channel := Stdout | Stderr.

Definition out_log := list (channel * string).

Definition M (A : Type) := out_log -> out_log * result A.

Definition ret {A} (a : A) : M A := fun l => (l, Ok a).

Definition bind {A B} (m : M A) (k : A -> M B) : M B :=
  fun l =>
    match m l with
    | (l', Ok a) => k a l'
    | (l', Raise e) => (l', Raise e)
    end.

Notation "x <- m ;; k" := (bind m (fun x => k))
  (at level 61, m at next level, right associativity).

(** A pure computation that may raise, run inside [M]. *)
Definition lift {A} (r : result A) : M A := fun l => (l, r).

(** [print(s)] and [print(s, file=sys.stderr)]. *)
Definition print (s : string) : M unit := fun l => (app l [(Stdout, s)], Ok tt).
Definition eprint (s : string) : M unit := fun l => (app l [(Stderr, s)], Ok tt).

(** [try: m  except ValueError as e: h(str(e))]. *)
Definition try_value_error {A} (m : M A) (h : string -> M A) : M A :=
  fun l =>
    match m l with
    | (l', Raise (ValueError msg)) => h msg l'
    | r => r
    end.

Definition newline : string := String (ascii_of_nat 10) "".

(** ** The command line *)

(** The [argparse.Namespace] built by [parser.parse_args(argv)]
    (source lines 71-77): [--principal] and [--rate] are optional floats
    ([None] when absent), [--percent] and [--examples] are [store_true]
    flags, [False] when absent. *)
Record Namespace := {
  principal : option float;
  rate : option float;
  percent : bool;
  examples : bool
}.

Section Cli.

(** The program name argparse prints, Python's [str(float)], and the
    usage text argparse prints ([parser.format_usage()]: [usage: ] and
    the options [-h], [--principal PRINCIPAL], [--rate RATE],
    [--percent], [--examples], wrapped by argparse's [HelpFormatter] to
    the terminal width, so spread over one or more lines); all three are
    provided by the Python runtime, not by this repository. *)
Variable prog : string.
Variable float_str : float -> string.
Variable usage : string.

(** [parser.error(message)] of argparse: the usage text and the message
    go to standard error and [SystemExit(2)] is raised. *)
Definition parser_error {A} (message : string) : M A :=
  _ <- eprint usage ;;
  _ <- eprint (prog ++ ": error: " ++ message) ;;
  fun l => (l, Raise (SystemExit 2)).

(** [main] (source lines 70-110), after argument parsing. *)
Definition main (args : Namespace) : M Z :=
  try_value_error
    (if examples args then
       let debt_a_principal := of_dec 2500000 2 in
       let debt_a_rate := of_dec 45 3 in
       let debt_b_principal := of_dec 250000 2 in
       let debt_b_rate := of_dec 12 2 in
       iis_a <- lift (calculate_iis debt_a_principal debt_a_rate None) ;;
       iis_b <- lift (calculate_iis debt_b_principal debt_b_rate None) ;;
       _ <- print "--- IIS CALCULATION PROTOCOL ENGAGED (EXAMPLES) ---" ;;
       _ <- print ("Debt A (P: " ++ _format_currency debt_a_principal ++ " | R: "
                   ++ format_fixed false 2 (fmul debt_a_rate hundred) ++ "%) -> IIS: "
                   ++ format_fixed false 6 iis_a) ;;
       _ <- print ("Debt B (P: " ++ _format_currency debt_b_principal ++ " | R: "
                   ++ format_fixed false 2 (fmul debt_b_rate hundred) ++ "%) -> IIS: "
                   ++ format_fixed false 6 iis_b) ;;
       _ <- (if flt iis_b iis_a
             then print (newline ++ "DECISION: Attack Debt A (Higher IIS) first for MAXIMUM impact.")
             else print (newline ++ "DECISION: Attack Debt B (Higher IIS) first for MAXIMUM impact.")) ;;
       ret 0
     else
       match principal args, rate args with
       | Some p, Some r =>
           iis <- lift (calculate_iis p r (Some (percent args))) ;;
           _ <- print "--- IIS CALCULATION PROTOCOL ENGAGED ---" ;;
           _ <- print ("Debt (P: " ++ _format_currency p ++ " | R: " ++ float_str r
                       ++ (if percent args then "%" else "") ++ ") -> IIS: "
                       ++ format_fixed false 6 iis) ;;
           ret 0
       | _, _ =>
           parser_error "Either --examples or both --principal and --rate must be provided."
       end)
    (fun e =>
       _ <- eprint ("Error: " ++ e) ;;
       ret 2).

(** What a run of the script shows: [raise SystemExit(main())]
    (source lines 113-114).  An uncaught [ValueError] would end the
    interpreter with status 1. *)
Record run := { out : list string; err : list string; status : Z }.

Definition lines_on (c : channel) (l : out_log) : list string :=
  map snd (filter (fun p => match fst p, c with
                            | Stdout, Stdout | Stderr, Stderr => true
                            | _, _ => false end) l).

Definition run_main (args : Namespace) : run :=
  let '(l, res) := main args [] in
  {| out := lines_on Stdout l;
     err := lines_on Stderr l;
     status := match res with
               | Ok c => c
               | Raise (SystemExit c) => c
               | Raise (ValueError _) => 1
               end |}.

End Cli.

(** The usage text argparse prints for [calculate_iis.py] on an
    80-column terminal (wrapped at 78 columns, continuation indented
    under the first option). *)
Definition usage_80 : string :=
  "usage: calculate_iis.py [-h] [--principal PRINCIPAL] [--rate RATE] [--percent]"
  ++ newline ++ "                        [--examples]".

(** The sign bit of a float is clear, or the float is a NaN: the float
    is not negative, and not [-0.0] either. *)
Definition sign_clear (x : float) : bool :=
  match x with
  | S754_zero s | S754_infinity s | S754_finite s _ _ => negb s
  | S754_nan => true
  end.

(** The least positive float, [5e-324] in Python. *)
Definition min_subnormal : float := S754_finite false 1 (-1074).

(** ** Evaluation on concrete inputs *)

Example format_currency_25000 : _format_currency (of_Z 25000) = "$25,000.00".
Proof. vm_compute. reflexivity. Qed.

Example format_currency_big : _format_currency (of_dec 12345678915 1) = "$1,234,567,891.50".
Proof. vm_compute. reflexivity. Qed.

Example format_fixed_small : format_fixed false 6 (of_dec 18 5) = "0.000180".
Proof. vm_compute. reflexivity. Qed.

Example format_fixed_tie : format_fixed false 0 (of_dec 25 1) = "2".
Proof. vm_compute. reflexivity. Qed.

Example format_fixed_neg : format_fixed false 2 (SFopp (of_dec 1 3)) = "-0.00".
Proof. vm_compute. reflexivity. Qed.

Example examples_run :
  run_main "calculate_iis.py" (fun _ => "") usage_80 {| principal := None; rate := None; percent := false; examples := true |}
  = {| out := ["--- IIS CALCULATION PROTOCOL ENGAGED (EXAMPLES) ---";
               "Debt A (P: $25,000.00 | R: 4.50%) -> IIS: 0.000180";
               "Debt B (P: $2,500.00 | R: 12.00%) -> IIS: 0.004800";
               newline ++ "DECISION: Attack Debt B (Higher IIS) first for MAXIMUM impact."];
       err := []; status := 0 |}.
Proof. vm_compute. reflexivity. Qed.

(** ** Facts about float comparisons *)

Lemma SFcompare_swap (a b : float) :
  SFcompare b a = option_map CompOpp (SFcompare a b).
Proof.
  destruct a as [sa|sa| |sa ma ea], b as [sb|sb| |sb mb eb];
    try destruct sa; try destruct sb; simpl; try reflexivity.
  all: rewrite (Z.compare_antisym ea eb);
    destruct (Z.compare ea eb); simpl; try reflexivity;
    pose proof (Pos.compare_cont_antisym ma mb Eq) as Hc; simpl in Hc;
    f_equal.
  - change (CompOpp (Pos.compare_cont Eq mb ma) =
            CompOpp (CompOpp (Pos.compare_cont Eq ma mb))).
    rewrite Hc. reflexivity.
  - exact (eq_sym Hc).
Qed.

(** [a < b] makes [b <= a] false. *)
Lemma flt_fle_false (a b : float) : flt a b = true -> fle b a = false.
Proof.
  unfold flt, fle, SFltb, SFleb. intro H. rewrite SFcompare_swap.
  destruct (SFcompare a b) as [[]|]; simpl; congruence.
Qed.

(** [a < b] implies [a <= b]: a value that is not [<= b] is not [< b]. *)
Lemma fle_false_flt_false (a b : float) : fle a b = false -> flt a b = false.
Proof.
  unfold flt, fle, SFltb, SFleb.
  destruct (SFcompare a b) as [[]|]; congruence.
Qed.

(** [_normalize_rate] never raises once the rate passed [rate <= 0]. *)
Lemma normalize_rate_ok (r : float) :
  fle r zero = false -> exists v, _normalize_rate r = Ok v.
Proof.
  intro H. unfold _normalize_rate.
  rewrite (fle_false_flt_false _ _ H).
  destruct (flt one r); eexists; reflexivity.
Qed.

(** The successful run of [calculate_iis] once both checks have passed. *)
Lemma calculate_iis_passed (p r : float) (f : option bool) :
  fle p zero = false -> fle r zero = false ->
  calculate_iis p r f =
    match f with
    | Some true => Ok (fmul (fdiv (fdiv r hundred) p) hundred)
    | Some false => Ok (fmul (fdiv r p) hundred)
    | None => if flt one r then Ok (fmul (fdiv (fdiv r hundred) p) hundred)
              else Ok (fmul (fdiv r p) hundred)
    end.
Proof.
  intros Hp Hr. unfold calculate_iis. rewrite Hp, Hr.
  destruct f as [[]|]; try reflexivity.
  unfold _normalize_rate. rewrite (fle_false_flt_false _ _ Hr).
  destruct (flt one r); reflexivity.
Qed.

Lemma calculate_iis_raises (p r : float) (f : option bool) :
  fle p zero = true \/ fle r zero = true ->
  exists msg, calculate_iis p r f = Raise (ValueError msg).
Proof.
  intros [H|H]; unfold calculate_iis.
  - rewrite H. eexists; reflexivity.
  - destruct (fle p zero); [|rewrite H]; eexists; reflexivity.
Qed.

(** ** The claims *)

(** C2: for [principal > 0] and a decimal rate [0 < r <= 1],
    [calculate_iis(principal, r)] (heuristic normalisation) returns
    [(r / principal) * 100], computed in floats as the source writes it. *)
Theorem calculate_iis_decimal_rate (p r : float) :
  flt zero p = true -> flt zero r = true -> fle r one = true ->
  calculate_iis p r None = Ok (fmul (fdiv r p) hundred).
Proof.
  intros Hp Hr Hr1.
  rewrite (calculate_iis_passed p r None (flt_fle_false _ _ Hp) (flt_fle_false _ _ Hr)).
  unfold flt, fle, SFltb, SFleb in *. rewrite SFcompare_swap.
  destruct (SFcompare r one) as [[]|]; simpl; congruence.
Qed.

Lemma calculate_iis_decimal_rate_witness :
  flt zero hundred = true /\ flt zero (of_dec 5 2) = true /\ fle (of_dec 5 2) one = true /\
  calculate_iis hundred (of_dec 5 2) None = Ok (fmul (fdiv (of_dec 5 2) hundred) hundred).
Proof.
  refine (conj eq_refl (conj eq_refl (conj eq_refl _))).
  apply calculate_iis_decimal_rate; vm_compute; reflexivity.
Defined.

(** C3: [calculate_iis(principal, rate, rate_is_percent)] raises a
    [ValueError] exactly when [principal <= 0] or [rate <= 0] (Python's
    float comparisons), and returns a value on every other input. *)
Theorem calculate_iis_raises_iff (p r : float) (f : option bool) :
  ((exists msg, calculate_iis p r f = Raise (ValueError msg)) <->
   (fle p zero = true \/ fle r zero = true)) /\
  ((exists v, calculate_iis p r f = Ok v) <->
   ~ (fle p zero = true \/ fle r zero = true)).
Proof.
  destruct (fle p zero) eqn:Hp; [|destruct (fle r zero) eqn:Hr].
  1,2: assert (Hbad : fle p zero = true \/ fle r zero = true) by (rewrite ?Hp, ?Hr; auto);
       destruct (calculate_iis_raises p r f Hbad) as [msg Hm]; rewrite Hm;
       split; split; [intros _; auto | intros _; eauto
                     | intros [v Hv]; discriminate | intros Hn; exfalso; auto].
  rewrite (calculate_iis_passed p r f Hp Hr).
  split; split.
  - intros [msg Hm]. destruct f as [[]|]; try destruct (flt one r); discriminate.
  - intros [H|H]; discriminate.
  - intros _ [H|H]; discriminate.
  - intros _. destruct f as [[]|]; try destruct (flt one r); eexists; reflexivity.
Qed.

(** C9: a rate of exactly [1.0] is taken as a decimal by the heuristic:
    for [principal > 0], [calculate_iis(principal, 1.0)] is
    [(1.0 / principal) * 100]. *)
Theorem calculate_iis_rate_one (p : float) :
  flt zero p = true -> calculate_iis p one None = Ok (fmul (fdiv one p) hundred).
Proof.
  intro Hp.
  rewrite (calculate_iis_passed p one None (flt_fle_false _ _ Hp) eq_refl).
  reflexivity.
Qed.

Lemma calculate_iis_rate_one_witness :
  flt zero (of_Z 2500) = true /\
  calculate_iis (of_Z 2500) one None = Ok (fmul (fdiv one (of_Z 2500)) hundred).
Proof.
  split; [vm_compute; reflexivity|].
  apply calculate_iis_rate_one; vm_compute; reflexivity.
Defined.

(** C10: the [Rate must be non-negative.] branch of [_normalize_rate]
    is unreachable from [calculate_iis]: every call of [_normalize_rate]
    comes after [rate <= 0] was found false, so [calculate_iis] never
    raises that error, whatever its arguments. *)
Theorem calculate_iis_never_negative_rate_error (p r : float) (f : option bool) :
  calculate_iis p r f <> Raise (ValueError "Rate must be non-negative.").
Proof.
  unfold calculate_iis.
  destruct (fle p zero); [discriminate|].
  destruct (fle r zero) eqn:Hr; [discriminate|].
  destruct f as [[]|]; try discriminate.
  destruct (normalize_rate_ok r Hr) as [v ->]. discriminate.
Qed.

(** C1 (the CLI without [--percent]): [--percent] is a [store_true]
    flag, so [args.percent] is [False] when the flag is omitted and
    [main] passes [rate_is_percent=False], not [None]: the rate is used
    as a decimal and the heuristic of [_normalize_rate] is not applied.
    On [--principal 100 --rate 8] the program prints an IIS of
    [8.000000], while the heuristic, which the [--percent] help text
    promises ("If omitted, heuristic is used."), gives [0.080000]. *)
Theorem main_percent_omitted_skips_heuristic (prog : string) (fs : float -> string) (usage : string) :
  run_main prog fs usage {| principal := Some hundred; rate := Some (of_Z 8);
                      percent := false; examples := false |}
  = {| out := ["--- IIS CALCULATION PROTOCOL ENGAGED ---";
               "Debt (P: $100.00 | R: " ++ fs (of_Z 8) ++ ") -> IIS: 8.000000"];
       err := []; status := 0 |}
  /\ (exists v, calculate_iis hundred (fdiv (of_Z 8) hundred) (Some false) = Ok v
                /\ format_fixed false 6 v = "0.080000").
Proof.
  split.
  - vm_compute. reflexivity.
  - eexists. split; [reflexivity | vm_compute; reflexivity].
Qed.

(** C4: in example mode, [calculate_iis(25000.00, 0.045)] is displayed
    as [0.000180], [calculate_iis(2500.00, 0.12)] as [0.004800], the
    second is the larger, and the decision line names Debt B. *)
Theorem examples_mode_selects_debt_b (prog : string) (fs : float -> string) (usage : string) :
  match calculate_iis (of_dec 2500000 2) (of_dec 45 3) None,
        calculate_iis (of_dec 250000 2) (of_dec 12 2) None with
  | Ok iis_a, Ok iis_b =>
      format_fixed false 6 iis_a = "0.000180" /\
      format_fixed false 6 iis_b = "0.004800" /\
      flt iis_a iis_b = true
  | _, _ => False
  end /\
  run_main prog fs usage {| principal := None; rate := None; percent := false; examples := true |}
  = {| out := ["--- IIS CALCULATION PROTOCOL ENGAGED (EXAMPLES) ---";
               "Debt A (P: $25,000.00 | R: 4.50%) -> IIS: 0.000180";
               "Debt B (P: $2,500.00 | R: 12.00%) -> IIS: 0.004800";
               newline ++ "DECISION: Attack Debt B (Higher IIS) first for MAXIMUM impact."];
       err := []; status := 0 |}.
Proof.
  split; vm_compute; [repeat split | reflexivity].
Qed.

(** C5: [calculate_iis(100, 8)] (heuristic: [8 > 1], so [8 / 100.0])
    equals [calculate_iis(100, 0.08, rate_is_percent=False)].  The
    integer arguments [100] and [8] are converted exactly to floats by
    the arithmetic of the source. *)
Theorem calculate_iis_8_heuristic_eq_decimal :
  calculate_iis (of_Z 100) (of_Z 8) None = calculate_iis (of_Z 100) (of_dec 8 2) (Some false).
Proof. vm_compute. reflexivity. Qed.

(** C6: without [--examples], a missing [--principal] or [--rate]
    ends in argparse's usage error: nothing is printed on standard
    output (no IIS is computed or reported), the usage text and the
    error message go to standard error, and the exit status is 2. *)
Theorem main_missing_argument_usage_error (prog : string) (fs : float -> string) (usage : string)
    (args : Namespace) :
  examples args = false -> principal args = None \/ rate args = None ->
  run_main prog fs usage args
  = {| out := [];
       err := [usage;
               prog ++ ": error: Either --examples or both --principal and --rate must be provided."];
       status := 2 |}.
Proof.
  destruct args as [p r pc ex]; simpl. intros -> [-> | ->].
  - reflexivity.
  - destruct p; reflexivity.
Qed.

Lemma main_missing_argument_usage_error_witness :
  run_main "calculate_iis.py" (fun _ => "") usage_80 {| principal := None; rate := None; percent := false; examples := false |}
  = {| out := [];
       err := [usage_80;
               "calculate_iis.py: error: Either --examples or both --principal and --rate must be provided."];
       status := 2 |}.
Proof.
  apply (main_missing_argument_usage_error "calculate_iis.py" (fun _ => "") usage_80
           {| principal := None; rate := None; percent := false; examples := false |});
    simpl; auto.
Defined.

(** C7: at the CLI boundary a [ValueError] of the calculator is caught,
    [Error: <message>] is the only line printed (on standard error) and
    the exit status is 2; when the calculation succeeds, in example mode
    or on the given [--principal] and [--rate], the exit status is 0 and
    nothing goes to standard error. *)
Theorem main_value_error_exit_codes (prog : string) (fs : float -> string) (usage : string)
    (args : Namespace) :
  (examples args = true ->
     status (run_main prog fs usage args) = 0 /\ err (run_main prog fs usage args) = []) /\
  (forall p r, examples args = false -> principal args = Some p -> rate args = Some r ->
     match calculate_iis p r (Some (percent args)) with
     | Raise (ValueError msg) =>
         run_main prog fs usage args = {| out := []; err := ["Error: " ++ msg]; status := 2 |}
     | Raise (SystemExit _) => False
     | Ok _ =>
         status (run_main prog fs usage args) = 0 /\ err (run_main prog fs usage args) = []
     end).
Proof.
  destruct args as [p0 r0 pc ex]; simpl. split.
  - intros ->. vm_compute. split; reflexivity.
  - intros p r -> -> ->. unfold run_main, main, try_value_error, bind, lift.
    cbn [examples principal rate percent].
    destruct (calculate_iis p r (Some pc)) as [v|[msg|c]] eqn:Hc.
    + destruct pc; split; reflexivity.
    + reflexivity.
    + destruct (calculate_iis_raises_iff p r (Some pc)) as [_ [_ Hok]].
      destruct (fle p zero) eqn:Hp; [|destruct (fle r zero) eqn:Hr].
      * unfold calculate_iis in Hc. rewrite Hp in Hc. discriminate.
      * unfold calculate_iis in Hc. rewrite Hp, Hr in Hc. discriminate.
      * destruct Hok as [v Hv]; [intros [H|H]; discriminate | congruence].
Qed.

Lemma main_value_error_exit_codes_witness :
  run_main "calculate_iis.py" (fun _ => "") usage_80
    {| principal := Some zero; rate := Some (of_Z 5); percent := false; examples := false |}
  = {| out := []; err := ["Error: Principal must be greater than zero."]; status := 2 |}.
Proof.
  exact (proj2 (main_value_error_exit_codes "calculate_iis.py" (fun _ => "") usage_80
                  {| principal := Some zero; rate := Some (of_Z 5); percent := false; examples := false |})
               zero (of_Z 5) eq_refl eq_refl eq_refl).
Defined.

(** C8, as stated: [calculate_iis(principal, r, rate_is_percent=True)]
    and [calculate_iis(principal, r / 100, rate_is_percent=False)] differ
    when [r / 100] underflows to [0.0]: for the least positive float
    [r = 5e-324] (a valid binary64 value) and [principal = 1.0], the first
    returns [0.0] while the second raises [Rate must be greater than
    zero.]. *)
Lemma calculate_iis_percent_flag_underflow :
  valid_binary prec emax min_subnormal = true /\
  fdiv min_subnormal hundred = S754_zero false /\
  calculate_iis one min_subnormal (Some true) = Ok (S754_zero false) /\
  calculate_iis one (fdiv min_subnormal hundred) (Some false)
    = Raise (ValueError "Rate must be greater than zero.") /\
  ~ (forall p r, flt zero p = true -> flt zero r = true ->
       calculate_iis p r (Some true) = calculate_iis p (fdiv r hundred) (Some false)).
Proof.
  refine (conj eq_refl (conj eq_refl (conj eq_refl (conj eq_refl _)))).
  intro H.
  specialize (H one min_subnormal eq_refl eq_refl).
  vm_compute in H. discriminate H.
Qed.

(** C8, amended: for [principal > 0] and [r > 0], when the float
    quotient [r / 100] is still [> 0] the percent flag is the decimal
    flag applied to [r / 100] (both calls return the same value); when
    [r / 100] underflows to [0.0], the call with the percent flag
    returns [0.0] and the decimal call on [r / 100] raises [Rate must be
    greater than zero.]. *)
Theorem calculate_iis_percent_flag (p r : float) :
  flt zero p = true -> flt zero r = true ->
  (flt zero (fdiv r hundred) = true ->
     calculate_iis p r (Some true) = calculate_iis p (fdiv r hundred) (Some false)) /\
  (fdiv r hundred = S754_zero false ->
     calculate_iis p r (Some true) = Ok (S754_zero false) /\
     calculate_iis p (fdiv r hundred) (Some false)
       = Raise (ValueError "Rate must be greater than zero.")).
Proof.
  intros Hp Hr.
  rewrite (calculate_iis_passed p r (Some true) (flt_fle_false _ _ Hp) (flt_fle_false _ _ Hr)).
  split.
  - intro Hr100.
    rewrite (calculate_iis_passed p (fdiv r hundred) (Some false)
               (flt_fle_false _ _ Hp) (flt_fle_false _ _ Hr100)).
    reflexivity.
  - intro Hz. rewrite Hz. split.
    + destruct p as [[]|[]| |[] m e]; cbv in Hp; try discriminate; reflexivity.
    + unfold calculate_iis. rewrite (flt_fle_false _ _ Hp). reflexivity.
Qed.

Lemma calculate_iis_percent_flag_witness :
  calculate_iis (of_Z 2500) (of_Z 12) (Some true)
    = calculate_iis (of_Z 2500) (fdiv (of_Z 12) hundred) (Some false) /\
  calculate_iis (of_Z 2500) min_subnormal (Some true) = Ok (S754_zero false).
Proof.
  split.
  - apply (proj1 (calculate_iis_percent_flag (of_Z 2500) (of_Z 12) eq_refl eq_refl)).
    vm_compute. reflexivity.
  - apply (proj2 (calculate_iis_percent_flag (of_Z 2500) min_subnormal eq_refl eq_refl)).
    vm_compute. reflexivity.
Defined.

(** ** Further properties of the calculator *)

Lemma binary_round_aux_sign (s : bool) (m e : Z) (l : location) :
  match binary_round_aux prec emax s m e l with
  | S754_zero s' | S754_infinity s' | S754_finite s' _ _ => s' = s
  | S754_nan => True
  end.
Proof.
  unfold binary_round_aux.
  destruct (shr_fexp prec emax m e l) as [mrs' e'].
  destruct (shr_fexp prec emax _ e' loc_Exact) as [mrs'' e''].
  destruct (shr_m mrs''); try exact I; try reflexivity.
  destruct (Z.leb e'' (emax - prec)); reflexivity.
Qed.

Lemma binary_round_aux_clear (m e : Z) (l : location) :
  sign_clear (binary_round_aux prec emax false m e l) = true.
Proof.
  pose proof (binary_round_aux_sign false m e l) as H.
  destruct (binary_round_aux prec emax false m e l); simpl; subst; reflexivity.
Qed.

Lemma fdiv_clear (a b : float) :
  sign_clear a = true -> sign_clear b = true -> sign_clear (fdiv a b) = true.
Proof.
  destruct a as [sa|sa| |sa ma ea], b as [sb|sb| |sb mb eb];
    simpl; intros Ha Hb; try reflexivity;
    apply negb_true_iff in Ha; apply negb_true_iff in Hb; subst; try reflexivity.
  unfold fdiv, SFdiv.
  destruct (SFdiv_core_binary prec emax _ _ _ _) as [[mz ez] lz].
  apply binary_round_aux_clear.
Qed.

Lemma fmul_clear (a b : float) :
  sign_clear a = true -> sign_clear b = true -> sign_clear (fmul a b) = true.
Proof.
  destruct a as [sa|sa| |sa ma ea], b as [sb|sb| |sb mb eb];
    simpl; intros Ha Hb; try reflexivity;
    apply negb_true_iff in Ha; apply negb_true_iff in Hb; subst; try reflexivity.
  apply binary_round_aux_clear.
Qed.

(** A value that passed [x <= 0] as false has its sign bit clear. *)
Lemma fle_zero_false_clear (x : float) : fle x zero = false -> sign_clear x = true.
Proof. destruct x as [[]|[]| |[] m e]; intro H; cbv in H |- *; congruence. Qed.

Lemma sign_clear_not_neg (x : float) : sign_clear x = true -> flt x zero = false.
Proof. destruct x as [[]|[]| |[] m e]; intro H; cbv in H |- *; congruence. Qed.

(** The heuristic of [calculate_iis] is the percent flag set to
    [rate > 1]: with [rate_is_percent=None] the function behaves, on
    every input and errors included, as with [rate_is_percent] equal to
    the truth value of [rate > 1]. *)
Theorem calculate_iis_heuristic_is_flag (p r : float) :
  calculate_iis p r None = calculate_iis p r (Some (flt one r)).
Proof.
  unfold calculate_iis.
  destruct (fle p zero); [reflexivity|].
  destruct (fle r zero) eqn:Hr; [reflexivity|].
  unfold _normalize_rate. rewrite (fle_false_flt_false _ _ Hr).
  destruct (flt one r); reflexivity.
Qed.

(** A score returned by [calculate_iis] is never negative: its sign
    bit is clear (it is not [-0.0]) or it is a NaN, so [iis < 0] is
    false. *)
Theorem calculate_iis_never_negative (p r v : float) (f : option bool) :
  calculate_iis p r f = Ok v -> sign_clear v = true /\ flt v zero = false.
Proof.
  intro H.
  assert (Hv : sign_clear v = true).
  { unfold calculate_iis in H.
    destruct (fle p zero) eqn:Hp; [discriminate|].
    destruct (fle r zero) eqn:Hr; [discriminate|].
    apply fle_zero_false_clear in Hp. apply fle_zero_false_clear in Hr.
    assert (Hh : sign_clear hundred = true) by reflexivity.
    destruct f as [[]|]; [| |unfold _normalize_rate in H;
                              rewrite (sign_clear_not_neg _ Hr) in H;
                              destruct (flt one r)];
      injection H as <-; auto using fmul_clear, fdiv_clear. }
  split; [exact Hv | apply sign_clear_not_neg, Hv].
Qed.

Lemma calculate_iis_never_negative_witness :
  sign_clear (fmul (fdiv (of_Z 8) hundred) hundred) = true /\
  flt (fmul (fdiv (of_Z 8) hundred) hundred) zero = false.
Proof.
  apply (calculate_iis_never_negative hundred (of_Z 8) _ (Some false)).
  vm_compute. reflexivity.
Defined.

Lemma fdiv_nan_l (x : float) : fdiv S754_nan x = S754_nan.
Proof. destruct x; reflexivity. Qed.

Lemma fdiv_nan_r (x : float) : fdiv x S754_nan = S754_nan.
Proof. destruct x; reflexivity. Qed.

Lemma fmul_nan_l (x : float) : fmul S754_nan x = S754_nan.
Proof. destruct x; reflexivity. Qed.

(** NaN passes both checks ([nan <= 0] is false in Python) and
    propagates: a NaN principal with an accepted rate, or a NaN rate
    with an accepted principal, gives a NaN score rather than an
    error. *)
Theorem calculate_iis_nan (p r : float) (f : option bool) :
  (fle r zero = false -> calculate_iis S754_nan r f = Ok S754_nan) /\
  (fle p zero = false -> calculate_iis p S754_nan f = Ok S754_nan).
Proof.
  split; intro H.
  - rewrite (calculate_iis_passed S754_nan r f eq_refl H).
    destruct f as [[]|]; [| |destruct (flt one r)];
      rewrite ?fdiv_nan_r, ?fdiv_nan_l, ?fmul_nan_l; reflexivity.
  - rewrite (calculate_iis_passed p S754_nan f H eq_refl).
    destruct f as [[]|]; simpl;
      rewrite ?fdiv_nan_r, ?fdiv_nan_l, ?fmul_nan_l; reflexivity.
Qed.

Lemma calculate_iis_nan_witness :
  calculate_iis S754_nan (of_Z 8) None = Ok S754_nan.
Proof. apply (calculate_iis_nan zero (of_Z 8) None). vm_compute. reflexivity. Defined.

(** ** Further properties of the command line *)

Lemma calculate_iis_no_system_exit (p r : float) (f : option bool) (c : Z) :
  calculate_iis p r f <> Raise (SystemExit c).
Proof.
  unfold calculate_iis.
  destruct (fle p zero); [discriminate|].
  destruct (fle r zero) eqn:Hr; [discriminate|].
  destruct f as [[]|]; try discriminate.
  destruct (normalize_rate_ok r Hr) as [v ->]. discriminate.
Qed.

(** Every run of the script ends in one of two ways: exit status 0 with
    nothing on standard error, or exit status 2 with nothing on standard
    output.  No [ValueError] escapes [main] (status 1 never occurs) and no
    partial result is printed before an error. *)
Theorem run_main_outcomes (prog : string) (fs : float -> string) (usage : string) (args : Namespace) :
  (status (run_main prog fs usage args) = 0 /\ err (run_main prog fs usage args) = []) \/
  (status (run_main prog fs usage args) = 2 /\ out (run_main prog fs usage args) = []).
Proof.
  destruct args as [p0 r0 pc [|]].
  { left. split; reflexivity. }
  destruct p0 as [p|]; [|right; split; reflexivity].
  destruct r0 as [r|]; [|right; split; reflexivity].
  unfold run_main, main, try_value_error, bind, lift.
  cbn [examples principal rate percent].
  destruct (calculate_iis p r (Some pc)) as [v|[msg|c]] eqn:Hc.
  - left. destruct pc; split; reflexivity.
  - right. split; reflexivity.
  - exfalso. exact (calculate_iis_no_system_exit _ _ _ _ Hc).
Qed.

(** Without [--examples] and with both values given, the script fails
    (exit status 2) exactly when the principal or the rate is [<= 0];
    otherwise it exits with status 0. *)
Theorem run_main_single_status (prog : string) (fs : float -> string) (usage : string)
    (args : Namespace) (p r : float) :
  examples args = false -> principal args = Some p -> rate args = Some r ->
  (status (run_main prog fs usage args) = 2 <-> fle p zero = true \/ fle r zero = true) /\
  (status (run_main prog fs usage args) = 0 <-> ~ (fle p zero = true \/ fle r zero = true)).
Proof.
  destruct args as [p0 r0 pc ex]; simpl. intros -> -> ->.
  destruct (calculate_iis_raises_iff p r (Some pc)) as [[Hr1 Hr2] [Ho1 Ho2]].
  unfold run_main, main, try_value_error, bind, lift.
  cbn [examples principal rate percent].
  destruct (calculate_iis p r (Some pc)) as [v|[msg|c]] eqn:Hc.
  - assert (Hn : ~ (fle p zero = true \/ fle r zero = true)) by eauto.
    destruct pc; (split; split; [discriminate | intro H; contradiction | intros _; exact Hn
                                | intros _; reflexivity]).
  - assert (Hy : fle p zero = true \/ fle r zero = true) by eauto.
    split; split; try (intros _; assumption); try reflexivity.
    + discriminate.
    + intro Hn; contradiction.
  - exfalso. exact (calculate_iis_no_system_exit _ _ _ _ Hc).
Qed.

Lemma run_main_single_status_witness :
  status (run_main "calculate_iis.py" (fun _ => "") usage_80
            {| principal := Some hundred; rate := Some zero; percent := false; examples := false |}) = 2.
Proof.
  apply (run_main_single_status "calculate_iis.py" (fun _ => "") usage_80
           {| principal := Some hundred; rate := Some zero; percent := false; examples := false |}
           hundred zero eq_refl eq_refl eq_refl).
  right. reflexivity.
Defined.
